(** * The pipeline orchestrator of [main.py]

    A shallow embedding of [go], the Hydra entry point that runs the
    stages of the pipeline one after the other, and of the library calls
    it relies on ([str.split], [str], [json.dump], [os.path.join],
    [os.path.abspath], [tempfile.TemporaryDirectory], [subprocess.run],
    [mlflow.run] and the [wandb] client).

    The orchestrator is effectful: it writes [os.environ], creates a
    temporary directory, writes a file, launches processes.  These effects
    are threaded through a small state-and-exception monad whose state is
    the part of the machine the code touches, together with the log of the
    collaborator calls made so far. *)

From Stdlib Require Import ZArith Ascii DecimalString DecimalZ DecimalPos.
From stdpp Require Import gmap strings list sorting.

Local Open Scope Z_scope.

(** ** Python strings and the string functions the code calls *)

Module Py.

(** [needle in haystack] on a list of strings: equality on each element,
    left to right. *)
Definition contains (needle : string) (haystack : list string) : bool :=
  existsb (String.eqb needle) haystack.

(** [s.split(sep)] for a one-character separator: one more token than
    there are separators, empty tokens kept, nothing trimmed;
    [''.split(',')] is [['']]. *)
Fixpoint split (sep : ascii) (s : string) : list string :=
  match s with
  | EmptyString => [EmptyString]
  | String c rest =>
      if Ascii.eqb c sep then EmptyString :: split sep rest
      else match split sep rest with
           | tok :: toks => String c tok :: toks
           | [] => [String c EmptyString]
           end
  end.

(** [s.startswith(prefix)]. *)
Definition startswith (s pre : string) : bool := String.prefix pre s.

(** [s.endswith(suffix)], on the reversed strings. *)
Definition endswith (s suf : string) : bool :=
  String.prefix (String.rev suf) (String.rev s).

(** The characters [str.strip()] removes, among those below 128. *)
Definition isspace (c : ascii) : bool :=
  let n := nat_of_ascii c in
  ((9 <=? n)%nat && (n <=? 13)%nat) || ((28 <=? n)%nat && (n <=? 32)%nat).

Fixpoint lstrip (s : string) : string :=
  match s with
  | String c rest => if isspace c then lstrip rest else s
  | EmptyString => EmptyString
  end.

Definition strip (s : string) : string :=
  String.rev (lstrip (String.rev (lstrip s))).

(** [os.path.join(a, b)] on POSIX: an absolute [b] discards [a]; a
    separator is added unless [a] is empty or already ends with one. *)
Definition path_join2 (a b : string) : string :=
  if startswith b "/" then b
  else if String.eqb a "" || endswith a "/" then a +:+ b
  else a +:+ "/" +:+ b.

(** [os.path.join(a, *parts)]. *)
Definition path_join (a : string) (parts : list string) : string :=
  fold_left path_join2 parts a.

End Py.

(** ** Configuration values *)

(** A scalar leaf of the configuration.  A float is carried by its [repr],
    which determines it ([float(repr(x)) == x]); the code only ever prints
    floats or hands them on. *)
Inductive value : Type :=
  | VInt (z : Z)
  | VFloat (repr : string)
  | VStr (s : string)
  | VBool (b : bool)
  | VNone.

(** [str(int)]: decimal digits, a leading minus sign for negatives. *)
Definition str_int (z : Z) : string := NilZero.string_of_int (Z.to_int z).

(** [str(v)] on a scalar. *)
Definition str (v : value) : string :=
  match v with
  | VInt z => str_int z
  | VFloat r => r
  | VStr s => s
  | VBool true => "True"
  | VBool false => "False"
  | VNone => "None"
  end.

(** ** [json.dump] on a flat mapping *)

Module Json.

(** The double quote and the backslash, by code. *)
Definition dquote : string := String (ascii_of_nat 34) EmptyString.
Definition backslash : string := String (ascii_of_nat 92) EmptyString.

Definition hex_digit (n : nat) : string :=
  String (nth n (String.list_ascii_of_string "0123456789abcdef") "0"%char) EmptyString.

(** One character of a string literal, as [ensure_ascii=True] writes it:
    the quote and the backslash are escaped, the five control characters
    with a short form use it, everything else outside the printable
    range [' '..'~'] becomes a [\uXXXX] escape.  A character of the model
    stands for a code point below 256. *)
Definition escape_char (c : ascii) : string :=
  let n := nat_of_ascii c in
  if (n =? 34)%nat then backslash +:+ dquote
  else if (n =? 92)%nat then backslash +:+ backslash
  else if (n =? 10)%nat then backslash +:+ "n"
  else if (n =? 13)%nat then backslash +:+ "r"
  else if (n =? 9)%nat then backslash +:+ "t"
  else if (n =? 12)%nat then backslash +:+ "f"
  else if (n =? 8)%nat then backslash +:+ "b"
  else if (32 <=? n)%nat && (n <=? 126)%nat then String c EmptyString
  else backslash +:+ "u00" +:+ hex_digit (n / 16) +:+ hex_digit (n mod 16).

Fixpoint escape (s : string) : string :=
  match s with
  | EmptyString => EmptyString
  | String c rest => escape_char c +:+ escape rest
  end.

Definition encode_string (s : string) : string := dquote +:+ escape s +:+ dquote.

(** [float.__repr__], except for the three values JSON has its own
    spelling for. *)
Definition encode_float (repr : string) : string :=
  if String.eqb repr "nan" then "NaN"
  else if String.eqb repr "inf" then "Infinity"
  else if String.eqb repr "-inf" then "-Infinity"
  else repr.

Definition encode_value (v : value) : string :=
  match v with
  | VInt z => str_int z
  | VFloat r => encode_float r
  | VStr s => encode_string s
  | VBool true => "true"
  | VBool false => "false"
  | VNone => "null"
  end.

Definition encode_item (kv : string * value) : string :=
  encode_string kv.1 +:+ ": " +:+ encode_value kv.2.

(** [', '.join(items)]. *)
Fixpoint join_items (items : list string) : string :=
  match items with
  | [] => EmptyString
  | [x] => x
  | x :: rest => x +:+ ", " +:+ join_items rest
  end.

(** [json.dumps(d)] with the default separators, keys in insertion
    order. *)
Definition dumps (d : list (string * value)) : string :=
  "{" +:+ join_items (map encode_item d) +:+ "}".

End Json.

(** ** The configuration object

    [config] is the nested [DictConfig] Hydra builds; one record per
    section, one field per key the orchestrator reads.  A key the code
    passes where a string is required (an environment value, a process
    argument, a path component) is a [string]; a key it stringifies or
    hands on as it is, is a [value]. *)

Module Main.
Record t : Type := Build {
  project_name : string;
  experiment_name : string;
  steps : string;
  components_repository : string }.
End Main.

Module Etl.
Record t : Type := Build {
  sample : string;
  output_artifact : string;
  output_type : string;
  output_description : string;
  min_price : value;
  max_price : value }.
End Etl.

Module DataCheck.
Record t : Type := Build { kl_threshold : value }.
End DataCheck.

Module Modeling.
Record t : Type := Build {
  test_size : value;
  random_seed : value;
  stratify_by : string;
  val_size : value;
  max_tfidf_features : value;
  output_artifact : string;
  random_forest : list (string * value) }.
End Modeling.

Record DictConfig : Type := Config {
  main : Main.t;
  etl : Etl.t;
  data_check_section : DataCheck.t;
  modeling : Modeling.t }.

(** ** Stages *)

(** The six stages [go] has a block for, in the order of the blocks. *)
Inductive stage : Type :=
  | download
  | basic_cleaning
  | data_check
  | data_split
  | train_random_forest
  | test_regression_model.

Global Instance stage_eq_dec : EqDecision stage.
Proof. solve_decision. Defined.

Definition stage_name (s : stage) : string :=
  match s with
  | download => "download"
  | basic_cleaning => "basic_cleaning"
  | data_check => "data_check"
  | data_split => "data_split"
  | train_random_forest => "train_random_forest"
  | test_regression_model => "test_regression_model"
  end.

(** Position of the stage's block in [go]. *)
Definition ordinal (s : stage) : nat :=
  match s with
  | download => 0
  | basic_cleaning => 1
  | data_check => 2
  | data_split => 3
  | train_random_forest => 4
  | test_regression_model => 5
  end.

Definition all_stages : list stage :=
  [download; basic_cleaning; data_check; data_split; train_random_forest;
   test_regression_model].

(** The module-level list [_steps]; the sixth name is commented out in
    the source. *)
Definition _steps : list string :=
  ["download"; "basic_cleaning"; "data_check"; "data_split"; "train_random_forest"].

(** Line 35: [steps_par.split(",") if steps_par != "all" else _steps]. *)
Definition active_steps_of (steps_par : string) : list string :=
  if negb (String.eqb steps_par "all") then Py.split ","%char steps_par else _steps.

(** ** The machine and the collaborators *)

(** The part of the process state and of the file system the orchestrator
    reads or writes: [os.environ], the regular files (path to content) and
    the directories that exist. *)
Record world : Type := World {
  environ : gmap string string;
  files : gmap string string;
  dirs : gset string }.

(** A call the orchestrator makes to a collaborator. *)
Inductive call : Type :=
  (** [wandb.init(job_type)], then an [Artifact(name, type, description)]
      with one file added, logged and waited for. *)
  | LogArtifact (job_type name type description local_file : string)
  (** [subprocess.run(args, check=True, cwd=cwd)]. *)
  | SubprocessRun (args : list string) (cwd : string)
  (** [mlflow.run(uri, entry_point, parameters=parameters)]. *)
  | MlflowRun (uri entry_point : string) (parameters : list (string * value)).

(** One executed stage: the block that made the call, the call, and the
    machine as the collaborator saw it when it was called. *)
Record event : Type := Event {
  ev_stage : stage;
  ev_call : call;
  ev_world : world }.

(** What the surroundings decide: Hydra's original working directory, the
    process's current directory, the directory [tempfile] creates, and how
    each stage ends (0 for success).  [go] launches a stage at most once
    per invocation, so a status per stage describes any run. *)
Record host : Type := Host {
  get_original_cwd : string;
  getcwd : string;
  mkdtemp : string;
  exit_status : stage -> Z }.

(** The exceptions the collaborators raise when a stage they ran fails.
    An error met before a stage is launched (a key missing from the
    configuration, a program that cannot be started) is outside the model:
    configurations are complete records and every launch takes place. *)
Inductive exn : Type :=
  | CalledProcessError (returncode : Z) (cmd : list string)
  | ExecutionException (uri : string)
  | WandbError (job_type : string).

(** ** The effect monad: state and exceptions *)

Record state : Type := State {
  st_world : world;
  st_trace : list event }.

Inductive result (A : Type) : Type :=
  | Ok (a : A)
  | Raise (e : exn).
Arguments Ok {A} a.
Arguments Raise {A} e.

Definition M (A : Type) : Type := state -> result A * state.

Global Instance M_ret : MRet M := fun A a st => (Ok a, st).

Global Instance M_bind : MBind M := fun A B k m st =>
  match m st with
  | (Ok a, st') => k a st'
  | (Raise e, st') => (Raise e, st')
  end.

Definition raise {A} (e : exn) : M A := fun st => (Raise e, st).

(** [if cond: body] with no [else]. *)
Definition when (cond : bool) (body : M unit) : M unit :=
  if cond then body else mret tt.

Definition modify (f : world -> world) : M unit :=
  fun st => (Ok tt, State (f (st_world st)) (st_trace st)).

(** [os.environ[key] = val]. *)
Definition setenv (key val : string) : M unit :=
  modify (fun w => World (<[key := val]> (environ w)) (files w) (dirs w)).

(** [with open(path, "w+") as fp: fp.write(content)]: the file is created
    or truncated. *)
Definition write_file (path content : string) : M unit :=
  modify (fun w => World (environ w) (<[path := content]> (files w)) (dirs w)).

(** Appends the call to the log, with the machine as it is now. *)
Definition emit (s : stage) (c : call) : M unit :=
  fun st => (Ok tt, State (st_world st) (st_trace st ++ [Event s c (st_world st)])).

(** A blocking call to a collaborator: it is logged, then it returns
    normally on status 0 and raises [e] otherwise.  The world keeps track
    of what [go] itself reads and writes; what a collaborator does to the
    machine on its own account (the files a stage produces, the variables
    a client library sets in its process) is not recorded. *)
Definition invoke (h : host) (s : stage) (c : call) (e : Z -> exn) : M unit :=
  emit s c ;;
  if exit_status h s =? 0 then mret tt else raise (e (exit_status h s)).

(** [path] is [dir] itself or lies below it. *)
Definition under (dir path : string) : bool :=
  String.eqb path dir || Py.startswith path (dir +:+ "/").

(** [shutil.rmtree(dir)]. *)
Definition rmtree (dir : string) (w : world) : world :=
  World (environ w)
        (filter (fun kv => under dir kv.1 = false) (files w))
        (filter (fun p => under dir p = false) (dirs w)).

(** [with tempfile.TemporaryDirectory() as tmp_dir: body]: the directory
    is created on entry and removed with its contents on exit, whether the
    body returns or raises; an exception of the body propagates. *)
Definition TemporaryDirectory {A} (h : host) (body : string -> M A) : M A :=
  fun st =>
    let tmp_dir := mkdtemp h in
    let w := st_world st in
    let entered := State (World (environ w) (files w) ({[tmp_dir]} ∪ dirs w)) (st_trace st) in
    let (r, st') := body tmp_dir entered in
    (r, State (rmtree tmp_dir (st_world st')) (st_trace st')).

(** [os.path.abspath(path)] for a relative [path] with no [.] or [..]
    component and a current directory as [os.getcwd()] returns it (absolute
    and normalised): the two joined. *)
Definition abspath (h : host) (path : string) : string :=
  Py.path_join2 (getcwd h) path.

(** ** The orchestrator *)

(** The body of the [with tempfile.TemporaryDirectory() as tmp_dir:]
    statement (lines 42 to 146): six [if "<name>" in active_steps:] blocks
    in a fixed order.  The body never refers to [tmp_dir].  The download
    block (lines 43 to 56) is one call to the tracking client: whether the
    client accepts the artifact name and finds the file is part of the
    status the host gives that stage. *)
Definition stages (config : DictConfig) (h : host) (active_steps : list string)
    (original_cwd tmp_dir : string) : M unit :=
  when (Py.contains "download" active_steps) (
    let local_file_path :=
      Py.path_join original_cwd ["data"; Etl.sample (etl config)] in
    invoke h download
      (LogArtifact "download_data" (Etl.sample (etl config)) "raw_data"
         "Raw data from local file" local_file_path)
      (fun _ => WandbError "download_data")) ;;
  when (Py.contains "basic_cleaning" active_steps) (
    let args :=
      ["python"; "run.py";
       "--input_artifact"; "sample.csv:latest";
       "--output_artifact"; Etl.output_artifact (etl config);
       "--output_type"; Etl.output_type (etl config);
       "--output_description"; Etl.output_description (etl config);
       "--min_price"; str (Etl.min_price (etl config));
       "--max_price"; str (Etl.max_price (etl config))] in
    invoke h basic_cleaning
      (SubprocessRun args (Py.path_join original_cwd ["src/basic_cleaning"]))
      (fun rc => CalledProcessError rc args)) ;;
  when (Py.contains "data_check" active_steps) (
    let args :=
      ["pytest"; "."; "-vv";
       "--csv"; "clean_sample:latest";
       "--ref"; "clean_sample:reference";
       "--kl_threshold"; str (DataCheck.kl_threshold (data_check_section config));
       "--min_price"; str (Etl.min_price (etl config));
       "--max_price"; str (Etl.max_price (etl config))] in
    invoke h data_check
      (SubprocessRun args (Py.path_join original_cwd ["src/data_check"]))
      (fun rc => CalledProcessError rc args)) ;;
  when (Py.contains "data_split" active_steps) (
    let uri := Main.components_repository (main config) +:+ "/train_val_test_split" in
    invoke h data_split
      (MlflowRun uri "main"
         [("input", VStr "clean_sample:latest");
          ("test_size", Modeling.test_size (modeling config));
          ("random_seed", Modeling.random_seed (modeling config));
          ("stratify_by", VStr (Modeling.stratify_by (modeling config)))])
      (fun _ => ExecutionException uri)) ;;
  when (Py.contains "train_random_forest" active_steps) (
    let rf_config := abspath h "rf_config.json" in
    write_file rf_config (Json.dumps (Modeling.random_forest (modeling config))) ;;
    let args :=
      ["python"; "run.py";
       "--trainval_artifact"; "trainval_data:latest";
       "--val_size"; str (Modeling.val_size (modeling config));
       "--random_seed"; str (Modeling.random_seed (modeling config));
       "--stratify_by"; Modeling.stratify_by (modeling config);
       "--rf_config"; rf_config;
       "--max_tfidf_features"; str (Modeling.max_tfidf_features (modeling config));
       "--output_artifact"; Modeling.output_artifact (modeling config)] in
    invoke h train_random_forest
      (SubprocessRun args (Py.path_join original_cwd ["src/train_random_forest"]))
      (fun rc => CalledProcessError rc args)) ;;
  when (Py.contains "test_regression_model" active_steps) (
    let uri := Main.components_repository (main config) +:+ "/test_regression_model" in
    invoke h test_regression_model
      (MlflowRun uri "main"
         [("mlflow_model", VStr "random_forest_export:prod");
          ("test_dataset", VStr "test_data:latest")])
      (fun _ => ExecutionException uri)).

(** [go(config)], lines 27 to 146. *)
Definition go (config : DictConfig) (h : host) : M unit :=
  setenv "WANDB_PROJECT" (Main.project_name (main config)) ;;
  setenv "WANDB_RUN_GROUP" (Main.experiment_name (main config)) ;;
  let steps_par := Main.steps (main config) in
  let active_steps := active_steps_of steps_par in
  let original_cwd := get_original_cwd h in
  TemporaryDirectory h (stages config h active_steps original_cwd).

(** One invocation of the orchestrator on the machine [w], from an empty
    log. *)
Definition run (config : DictConfig) (h : host) (w : world) : result unit * state :=
  go config h (State w []).

(** The stages that executed, in the order they did. *)
Definition executed (st : state) : list stage := map ev_stage (st_trace st).

(** The stages an invocation executed. *)
Definition stages_run (config : DictConfig) (h : host) (w : world) : list stage :=
  executed (run config h w).2.

(** A test configuration and host. *)
Definition config0 (steps : string) : DictConfig :=
  Config (Main.Build "nyc_airbnb" "development" steps "https://github.com/udacity/components")
         (Etl.Build "sample.csv" "clean_sample.csv" "clean_sample" "Data with outliers removed"
                    (VInt 10) (VInt 1000))
         (DataCheck.Build (VFloat "0.2"))
         (Modeling.Build (VFloat "0.2") (VInt 42) "none" (VFloat "0.2") (VInt 5)
                         "random_forest_export" [("n_estimators", VInt 100)]).

Definition host0 : host :=
  Host "/home/user/project" "/home/user/project/outputs/run" "/tmp/tmpk3x9a2" (fun _ => 0).

Definition world0 : world := World ∅ ∅ ∅.

(** ** What an invocation does, in closed form *)

(** The stages whose name is among the tokens, in the order of the
    blocks. *)
Definition selected (active_steps : list string) : list stage :=
  List.filter (fun s => Py.contains (stage_name s) active_steps) all_stages.

(** The stages of [l] up to and including the first one that fails. *)
Fixpoint until_failure (h : host) (l : list stage) : list stage :=
  match l with
  | [] => []
  | s :: l' => if exit_status h s =? 0 then s :: until_failure h l' else [s]
  end.

(** The call each block makes. *)
Definition call_of (config : DictConfig) (h : host) (s : stage) : call :=
  let original_cwd := get_original_cwd h in
  match s with
  | download =>
      LogArtifact "download_data" (Etl.sample (etl config)) "raw_data"
        "Raw data from local file"
        (Py.path_join original_cwd ["data"; Etl.sample (etl config)])
  | basic_cleaning =>
      SubprocessRun
        ["python"; "run.py";
         "--input_artifact"; "sample.csv:latest";
         "--output_artifact"; Etl.output_artifact (etl config);
         "--output_type"; Etl.output_type (etl config);
         "--output_description"; Etl.output_description (etl config);
         "--min_price"; str (Etl.min_price (etl config));
         "--max_price"; str (Etl.max_price (etl config))]
        (Py.path_join original_cwd ["src/basic_cleaning"])
  | data_check =>
      SubprocessRun
        ["pytest"; "."; "-vv";
         "--csv"; "clean_sample:latest";
         "--ref"; "clean_sample:reference";
         "--kl_threshold"; str (DataCheck.kl_threshold (data_check_section config));
         "--min_price"; str (Etl.min_price (etl config));
         "--max_price"; str (Etl.max_price (etl config))]
        (Py.path_join original_cwd ["src/data_check"])
  | data_split =>
      MlflowRun (Main.components_repository (main config) +:+ "/train_val_test_split") "main"
        [("input", VStr "clean_sample:latest");
         ("test_size", Modeling.test_size (modeling config));
         ("random_seed", Modeling.random_seed (modeling config));
         ("stratify_by", VStr (Modeling.stratify_by (modeling config)))]
  | train_random_forest =>
      SubprocessRun
        ["python"; "run.py";
         "--trainval_artifact"; "trainval_data:latest";
         "--val_size"; str (Modeling.val_size (modeling config));
         "--random_seed"; str (Modeling.random_seed (modeling config));
         "--stratify_by"; Modeling.stratify_by (modeling config);
         "--rf_config"; abspath h "rf_config.json";
         "--max_tfidf_features"; str (Modeling.max_tfidf_features (modeling config));
         "--output_artifact"; Modeling.output_artifact (modeling config)]
        (Py.path_join original_cwd ["src/train_random_forest"])
  | test_regression_model =>
      MlflowRun (Main.components_repository (main config) +:+ "/test_regression_model") "main"
        [("mlflow_model", VStr "random_forest_export:prod");
         ("test_dataset", VStr "test_data:latest")]
  end.

(** The exception a failing stage raises. *)
Definition exn_of (config : DictConfig) (h : host) (s : stage) : exn :=
  match call_of config h s with
  | LogArtifact job_type _ _ _ _ => WandbError job_type
  | SubprocessRun args _ => CalledProcessError (exit_status h s) args
  | MlflowRun uri _ _ => ExecutionException uri
  end.

(** The machine once [rf_config.json] has been written. *)
Definition with_rf_config (config : DictConfig) (h : host) (w : world) : world :=
  World (environ w)
        (<[abspath h "rf_config.json" :=
             Json.dumps (Modeling.random_forest (modeling config))]> (files w))
        (dirs w).

(** The machine a stage is launched on, when the body started on [w]. *)
Definition world_seen (config : DictConfig) (h : host) (active_steps : list string)
    (w : world) (s : stage) : world :=
  if (4 <=? ordinal s)%nat && Py.contains "train_random_forest" active_steps
  then with_rf_config config h w else w.

(** How a body that executed the stages [l] ends. *)
Definition outcome (config : DictConfig) (h : host) (l : list stage) : result unit :=
  match last l with
  | Some s => if exit_status h s =? 0 then Ok tt else Raise (exn_of config h s)
  | None => Ok tt
  end.

(** The machine a body that executed the stages [l] leaves. *)
Definition world_left (config : DictConfig) (h : host) (l : list stage) (w : world) : world :=
  if existsb (fun s => bool_decide (s = train_random_forest)) l
  then with_rf_config config h w else w.

(** The machine on which the stages run: the run group is in the
    environment and the temporary directory exists. *)
Definition world_entered (config : DictConfig) (h : host) (w : world) : world :=
  World (<["WANDB_RUN_GROUP" := Main.experiment_name (main config)]>
           (<["WANDB_PROJECT" := Main.project_name (main config)]> (environ w)))
        (files w)
        ({[mkdtemp h]} ∪ dirs w).

(** The selection the specification describes for a directive other than
    [all]: split on commas, each token trimmed. *)
Definition trimmed_steps_of (steps_par : string) : list string :=
  map Py.strip (Py.split ","%char steps_par).

(** The stages an invocation executes: those the directive selects, up to
    the first failure. *)
Definition expected_stages (config : DictConfig) (h : host) : list stage :=
  until_failure h (selected (active_steps_of (Main.steps (main config)))).

(** The configuration with another [main.steps]. *)
Definition with_steps (config : DictConfig) (steps_par : string) : DictConfig :=
  Config (Main.Build (Main.project_name (main config)) (Main.experiment_name (main config))
                     steps_par (Main.components_repository (main config)))
         (etl config) (data_check_section config) (modeling config).

(** The token is the name of one of the six stages. *)
Definition is_stage_name (token : string) : bool :=
  existsb (fun s => String.eqb token (stage_name s)) all_stages.

(** The value that follows [flag] in an argument list. *)
Fixpoint flag_value (flag : string) (args : list string) : option string :=
  match args with
  | a :: (v :: _) as rest => if String.eqb a flag then Some v else flag_value flag rest
  | _ => None
  end.

(** The value a process is given for [flag]. *)
Definition argument (flag : string) (c : call) : option string :=
  match c with
  | SubprocessRun args _ => flag_value flag args
  | _ => None
  end.

(** The name and the type of the artifact a call publishes. *)
Definition published (c : call) : option (string * string) :=
  match c with
  | LogArtifact _ name type _ _ => Some (name, type)
  | _ => None
  end.

(** The calls of an invocation, each with the stage that made it. *)
Definition calls (config : DictConfig) (h : host) (w : world) : list (stage * call) :=
  map (fun e => (ev_stage e, ev_call e)) (st_trace (run config h w).2).

(** The order of the blocks. *)
Definition before (a b : stage) : Prop := (ordinal a < ordinal b)%nat.

(** A host on which one stage fails with status 1. *)
Definition failing_host (s : stage) : host :=
  Host "/home/user/project" "/home/user/project/outputs/run" "/tmp/tmpk3x9a2"
       (fun s' => if bool_decide (s' = s) then 1 else 0).

(** A configuration whose sample is another file. *)
Definition config1 (steps : string) : DictConfig :=
  Config (main (config0 steps))
         (Etl.Build "sample2.csv" "clean_sample.csv" "clean_sample"
                    "Data with outliers removed" (VInt 10) (VInt 350))
         (data_check_section (config0 steps)) (modeling (config0 steps)).

(** A machine with a variable, a data file and two directories. *)
Definition world1 : world :=
  World {["HOME" := "/home/user"]}
        {["/home/user/project/data/sample.csv" := "id,price"]}
        ({["/tmp"]} ∪ {["/home/user/project"]}).

(** The character does not occur in the string. *)
Fixpoint free_of (c : ascii) (s : string) : bool :=
  match s with
  | EmptyString => true
  | String a rest => negb (Ascii.eqb a c) && free_of c rest
  end.

(** ** The library functions on small inputs *)

Example str_int_10 : str (VInt 10) = "10".
Proof. reflexivity. Qed.

Example str_int_neg : str (VInt (-7)) = "-7".
Proof. reflexivity. Qed.

Example split_two :
  Py.split ","%char "data_split,download" = ["data_split"; "download"].
Proof. reflexivity. Qed.

Example split_space :
  Py.split ","%char "download, data_check" = ["download"; " data_check"].
Proof. reflexivity. Qed.

Example split_empty : Py.split ","%char "" = [""].
Proof. reflexivity. Qed.

Example split_trailing : Py.split ","%char "a,,b," = ["a"; ""; "b"; ""].
Proof. reflexivity. Qed.

Example strip_both : Py.strip "  data_check " = "data_check".
Proof. reflexivity. Qed.

Example join_three :
  Py.path_join "/home/u/proj" ["data"; "sample.csv"] = "/home/u/proj/data/sample.csv".
Proof. reflexivity. Qed.

Example join_absolute : Py.path_join2 "/home/u" "/etc/passwd" = "/etc/passwd".
Proof. reflexivity. Qed.

Example dumps_escapes :
  Json.dumps [("a", VStr "x\y"); ("b", VBool true); ("c", VNone)] =
    "{" +:+ Json.dquote +:+ "a" +:+ Json.dquote +:+ ": " +:+
      Json.dquote +:+ "x\\y" +:+ Json.dquote +:+ ", " +:+
      Json.dquote +:+ "b" +:+ Json.dquote +:+ ": true, " +:+
      Json.dquote +:+ "c" +:+ Json.dquote +:+ ": null}".
Proof. reflexivity. Qed.

Example run_all :
  stages_run (config0 "all") host0 world0 =
    [download; basic_cleaning; data_check; data_split; train_random_forest].
Proof. vm_compute. reflexivity. Qed.

Example run_empty_directive : stages_run (config0 "") host0 world0 = [].
Proof. vm_compute. reflexivity. Qed.

(** ** The body of the [with] statement *)

Section Body.
Context (config : DictConfig) (h : host).

Lemma stages_spec (active_steps : list string) (tmp_dir : string) (st : state) :
  let l := until_failure h (selected active_steps) in
  stages config h active_steps (get_original_cwd h) tmp_dir st =
    (outcome config h l,
     State (world_left config h l (st_world st))
           (st_trace st ++
              map (fun s => Event s (call_of config h s)
                              (world_seen config h active_steps (st_world st) s)) l)).
Proof.
  destruct st as [w tr].
  unfold stages, selected, all_stages, outcome, world_left, world_seen.
  cbn [List.filter stage_name].
  destruct (Py.contains "download" active_steps) eqn:E0;
  destruct (Py.contains "basic_cleaning" active_steps) eqn:E1;
  destruct (Py.contains "data_check" active_steps) eqn:E2;
  destruct (Py.contains "data_split" active_steps) eqn:E3;
  destruct (Py.contains "train_random_forest" active_steps) eqn:E4;
  destruct (Py.contains "test_regression_model" active_steps) eqn:E5;
  unfold when, invoke, emit, write_file, modify, mbind, M_bind, mret, M_ret, raise;
  cbn [until_failure st_world st_trace];
  repeat match goal with
    | |- context [exit_status h ?s =? 0] =>
        destruct (exit_status h s =? 0) eqn:?;
        cbn [until_failure st_world st_trace]
    end;
  cbn [map last existsb ordinal exn_of call_of];
  repeat match goal with
    | H : (exit_status h _ =? 0) = _ |- _ => rewrite ?H; clear H
    end;
  rewrite ?app_nil_r, <- ?app_assoc; reflexivity.
Qed.

End Body.


(** ** Tokens and selection *)

Lemma contains_elem_of (x : string) (l : list string) :
  Py.contains x l = true <-> x ∈ l.
Proof.
  unfold Py.contains. rewrite existsb_exists, list_elem_of_In. split.
  - intros (y & Hy & E). apply String.eqb_eq in E. by subst.
  - intros Hx. exists x. split; [done | apply String.eqb_refl].
Qed.

Lemma all_stages_complete (s : stage) : In s all_stages.
Proof. destruct s; cbn; tauto. Qed.

Lemma selected_elem_of (active_steps : list string) (s : stage) :
  s ∈ selected active_steps <-> stage_name s ∈ active_steps.
Proof.
  unfold selected. rewrite list_elem_of_In, filter_In, contains_elem_of.
  split; [tauto | split; [apply all_stages_complete | done]].
Qed.

Lemma all_stages_sorted : StronglySorted before all_stages.
Proof. unfold all_stages, before. repeat constructor; cbn; lia. Qed.

Lemma filter_sorted (f : stage -> bool) (l : list stage) :
  StronglySorted before l -> StronglySorted before (List.filter f l).
Proof.
  induction 1 as [| a l Hl IH Ha]; cbn; [constructor |].
  destruct (f a); [| done]. constructor; [done |].
  rewrite Forall_forall in *. intros x Hx.
  apply list_elem_of_In, filter_In in Hx. apply Ha, list_elem_of_In. tauto.
Qed.

Lemma selected_sorted (active_steps : list string) :
  StronglySorted before (selected active_steps).
Proof. apply filter_sorted, all_stages_sorted. Qed.

Lemma filter_sublist_of (f : stage -> bool) (l : list stage) :
  List.filter f l `sublist_of` l.
Proof.
  induction l as [| a l IH]; cbn; [constructor |].
  destruct (f a); [by apply sublist_skip | by apply sublist_cons].
Qed.

Lemma selected_ext (a a' : list string) :
  (forall x, x ∈ a <-> x ∈ a') -> selected a = selected a'.
Proof.
  intros H. unfold selected. apply filter_ext. intros s.
  destruct (Py.contains (stage_name s) a) eqn:E; symmetry.
  - apply contains_elem_of, H, contains_elem_of, E.
  - destruct (Py.contains (stage_name s) a') eqn:E'; [| done].
    apply contains_elem_of, H, contains_elem_of in E'. congruence.
Qed.

(** ** Stopping at the first failure *)

Section Failure.
Context (h : host).

Lemma until_failure_prefix (l : list stage) : until_failure h l `prefix_of` l.
Proof.
  induction l as [| s l IH]; cbn; [done |].
  destruct (exit_status h s =? 0).
  - by apply prefix_cons.
  - exists l. done.
Qed.

Lemma until_failure_sublist (l : list stage) : until_failure h l `sublist_of` l.
Proof.
  destruct (until_failure_prefix l) as [k Hk].
  rewrite Hk at 2. by apply sublist_inserts_r.
Qed.

Lemma until_failure_all_ok (l : list stage) :
  (forall s, s ∈ l -> exit_status h s = 0) -> until_failure h l = l.
Proof.
  induction l as [| s l IH]; cbn; [done |]. intros H.
  rewrite (H s) by set_solver. cbn. f_equal. apply IH. intros; apply H; set_solver.
Qed.

(** A stage that ran and failed is the last one that ran. *)
Lemma until_failure_stops (l : list stage) (s : stage) :
  s ∈ until_failure h l -> exit_status h s <> 0 ->
  last (until_failure h l) = Some s.
Proof.
  induction l as [| a l IH]; cbn; [by intros ?%not_elem_of_nil |].
  destruct (exit_status h a =? 0) eqn:E.
  - apply Z.eqb_eq in E. intros [-> | Hs]%elem_of_cons Hne; [done |].
    specialize (IH Hs Hne). destruct (until_failure h l); [done | exact IH].
  - intros ->%list_elem_of_singleton _. done.
Qed.

(** Every stage but the last one that ran succeeded. *)
Lemma until_failure_last (l : list stage) (s : stage) :
  s ∈ until_failure h l -> last (until_failure h l) <> Some s ->
  exit_status h s = 0.
Proof.
  intros Hs Hl. destruct (Z.eq_dec (exit_status h s) 0) as [| Hne]; [done |].
  by apply (until_failure_stops l) in Hne.
Qed.

Lemma last_elem_of (l : list stage) (s : stage) : last l = Some s -> s ∈ l.
Proof.
  intros H. apply last_Some in H as [k ->]. set_solver.
Qed.

Lemma sorted_last_greatest (l : list stage) (s s' : stage) :
  StronglySorted before l -> last l = Some s -> s' ∈ l -> s' = s \/ before s' s.
Proof.
  intros Hl Hs. apply last_Some in Hs as [k ->].
  apply StronglySorted_app in Hl as (Hk & _ & _).
  intros [Hs' | ->%list_elem_of_singleton]%elem_of_app; [right | by left].
  apply Hk; set_solver.
Qed.

End Failure.

(** ** One invocation *)

Section Invocation.
Context (config : DictConfig) (h : host) (w : world).

Lemma run_spec :
  run config h w =
    (outcome config h (expected_stages config h),
     State (rmtree (mkdtemp h)
              (world_left config h (expected_stages config h) (world_entered config h w)))
           (map (fun s => Event s (call_of config h s)
                            (world_seen config h (active_steps_of (Main.steps (main config)))
                               (world_entered config h w) s))
                (expected_stages config h))).
Proof.
  unfold run, go, TemporaryDirectory, setenv, modify, mbind, M_bind.
  cbn [st_world st_trace environ files dirs].
  rewrite stages_spec. reflexivity.
Qed.

Lemma stages_run_spec : stages_run config h w = expected_stages config h.
Proof.
  unfold stages_run, executed. rewrite run_spec. cbn [snd st_trace].
  rewrite map_map. cbn [ev_stage]. apply map_id.
Qed.

Lemma calls_spec :
  calls config h w = map (fun s => (s, call_of config h s)) (expected_stages config h).
Proof.
  unfold calls. rewrite run_spec. cbn [snd st_trace]. by rewrite map_map.
Qed.

Lemma trace_elem_of (e : event) :
  e ∈ st_trace (run config h w).2 ->
  ev_stage e ∈ stages_run config h w /\
  ev_call e = call_of config h (ev_stage e) /\
  ev_world e =
    world_seen config h (active_steps_of (Main.steps (main config)))
      (world_entered config h w) (ev_stage e).
Proof.
  rewrite stages_run_spec, run_spec. cbn [snd st_trace].
  intros (s & -> & Hs)%list_elem_of_fmap. done.
Qed.

Lemma stages_run_sorted : StronglySorted before (stages_run config h w).
Proof.
  rewrite stages_run_spec. unfold expected_stages.
  destruct (until_failure_prefix h
              (selected (active_steps_of (Main.steps (main config))))) as [k Hk].
  pose proof (selected_sorted (active_steps_of (Main.steps (main config)))) as Hs.
  rewrite Hk in Hs.
  by apply StronglySorted_app in Hs as (_ & ? & _).
Qed.

Lemma stages_run_selected (s : stage) :
  s ∈ stages_run config h w ->
  stage_name s ∈ active_steps_of (Main.steps (main config)).
Proof.
  rewrite stages_run_spec. unfold expected_stages. intros Hs. apply selected_elem_of.
  eapply elem_of_sublist; [exact Hs | apply until_failure_sublist].
Qed.

Lemma workspace_removed : mkdtemp h ∉ dirs (st_world (run config h w).2).
Proof.
  rewrite run_spec. cbn [snd st_world rmtree dirs].
  intros [Hu _]%elem_of_filter. unfold under in Hu.
  by rewrite String.eqb_refl in Hu.
Qed.

End Invocation.

(** ** Splitting and joining *)

Lemma split_nonempty (c : ascii) (s : string) : Py.split c s <> [].
Proof.
  destruct s as [| a s]; cbn; [done |].
  destruct (Ascii.eqb a c); [done |]. by destruct (Py.split c s).
Qed.

(** Joining the tokens with the separator gives the directive back: no
    character is dropped or changed. *)
Lemma concat_split (c : ascii) (s : string) :
  String.concat (String c EmptyString) (Py.split c s) = s.
Proof.
  induction s as [| a s IH]; cbn [Py.split]; [done |].
  pose proof (split_nonempty c s) as Hne.
  destruct (Ascii.eqb a c) eqn:E.
  - apply Ascii.eqb_eq in E as ->.
    cbn [String.concat]. destruct (Py.split c s) as [| t ts]; [done |].
    cbn [String.append]. by rewrite IH.
  - destruct (Py.split c s) as [| t ts]; [done |].
    destruct ts; simpl in *; by rewrite <- IH.
Qed.

Lemma split_free (c : ascii) (t : string) :
  free_of c t = true -> Py.split c t = [t].
Proof.
  induction t as [| a t IH]; cbn; [done |].
  destruct (Ascii.eqb a c); cbn; [done |]. intros H. by rewrite (IH H).
Qed.

Lemma split_cons (c : ascii) (t rest : string) :
  free_of c t = true -> Py.split c (t +:+ String c rest) = t :: Py.split c rest.
Proof.
  induction t as [| a t IH]; simpl.
  - by rewrite Ascii.eqb_refl.
  - destruct (Ascii.eqb a c); cbn; [done |]. intros H. by rewrite (IH H).
Qed.

(** Splitting what a join of separator-free tokens gives returns the
    tokens. *)
Lemma split_concat (c : ascii) (l : list string) :
  l <> [] ->
  Forall (fun t => free_of c t = true) l ->
  Py.split c (String.concat (String c EmptyString) l) = l.
Proof.
  intros Hne Hl. induction Hl as [| t l Ht Hl IH]; [done |].
  destruct l as [| t' l'].
  - by apply split_free.
  - change (String.concat (String c EmptyString) (t :: t' :: l'))
      with (t +:+ String c (String.concat (String c EmptyString) (t' :: l'))).
    rewrite split_cons by done. f_equal. by apply IH.
Qed.

Lemma stage_name_inj (s s' : stage) : stage_name s = stage_name s' -> s = s'.
Proof. destruct s, s'; cbn; intros [=]; reflexivity. Qed.

(** The stages selected depend only on which stage names are among the
    tokens. *)
Lemma selected_ext_names (a a' : list string) :
  (forall s : stage, stage_name s ∈ a <-> stage_name s ∈ a') -> selected a = selected a'.
Proof.
  intros H. unfold selected. apply filter_ext. intros s.
  destruct (Py.contains (stage_name s) a) eqn:E; symmetry.
  - apply contains_elem_of, H, contains_elem_of, E.
  - destruct (Py.contains (stage_name s) a') eqn:E'; [| done].
    apply contains_elem_of, H, contains_elem_of in E'. congruence.
Qed.

Lemma contains_ext_names (a a' : list string) (s : stage) :
  (forall s : stage, stage_name s ∈ a <-> stage_name s ∈ a') ->
  Py.contains (stage_name s) a = Py.contains (stage_name s) a'.
Proof.
  intros H. destruct (Py.contains (stage_name s) a') eqn:E.
  - by apply contains_elem_of, H, contains_elem_of.
  - destruct (Py.contains (stage_name s) a) eqn:E'; [| done].
    apply contains_elem_of, H, contains_elem_of in E'. congruence.
Qed.

Lemma is_stage_name_spec (t : string) :
  is_stage_name t = true <-> exists s : stage, t = stage_name s.
Proof.
  unfold is_stage_name. rewrite existsb_exists. split.
  - intros (s & _ & E). apply String.eqb_eq in E. eauto.
  - intros (s & ->). exists s. split; [apply all_stages_complete | apply String.eqb_refl].
Qed.

(** A list of stage names is the list of the names of some stages. *)
Lemma stage_names_list (l : list string) :
  Forall (fun t => is_stage_name t = true) l -> exists ss : list stage, l = map stage_name ss.
Proof.
  induction 1 as [| t l Ht _ (ss & ->)]; [by exists [] |].
  apply is_stage_name_spec in Ht as (s & ->). by exists (s :: ss).
Qed.

Lemma selected_stage_names (ss : list stage) :
  selected (map stage_name ss) = List.filter (fun s => bool_decide (s ∈ ss)) all_stages.
Proof.
  unfold selected. apply filter_ext. intros s. destruct (bool_decide (s ∈ ss)) eqn:E.
  - apply bool_decide_eq_true in E. apply contains_elem_of, list_elem_of_fmap. eauto.
  - apply bool_decide_eq_false in E.
    destruct (Py.contains (stage_name s) (map stage_name ss)) eqn:E'; [| done].
    apply contains_elem_of, list_elem_of_fmap in E' as (s' & Hs' & Hin).
    apply stage_name_inj in Hs' as ->. done.
Qed.

Lemma split_stage_names (ss : list stage) :
  ss <> [] ->
  Py.split ","%char (String.concat "," (map stage_name ss)) = map stage_name ss.
Proof.
  intros Hne. apply split_concat; [by destruct ss |].
  apply Forall_forall. intros t (s & -> & _)%list_elem_of_fmap. by destruct s.
Qed.

Lemma stage_names_not_all (d : string) :
  Forall (fun t => is_stage_name t = true) (Py.split ","%char d) -> d <> "all".
Proof. intros H ->. cbn in H. by apply Forall_cons in H as [[=] _]. Qed.

(** ** Reaching a stage *)

Section Chain.
Context (h : host).

(** On a list in block order, a stage is reached exactly when it is in
    the list and everything before it succeeded. *)
Lemma until_failure_elem_of (l : list stage) (s : stage) :
  StronglySorted before l ->
  s ∈ until_failure h l <->
  s ∈ l /\ forall s' : stage, s' ∈ l -> before s' s -> exit_status h s' = 0.
Proof.
  induction 1 as [| a l Hl IH Ha]; cbn [until_failure].
  { split; [by intros ?%not_elem_of_nil | by intros [?%not_elem_of_nil _]]. }
  rewrite Forall_forall in Ha. unfold before in *.
  destruct (exit_status h a =? 0) eqn:E.
  - apply Z.eqb_eq in E. rewrite !elem_of_cons, IH. split.
    + intros [-> | [Hs Hok]].
      * split; [by left |]. intros s' [-> | Hs']%elem_of_cons Hb; [done |].
        specialize (Ha s' Hs'). lia.
      * split; [by right |]. intros s' [-> | Hs']%elem_of_cons Hb; [done | by apply Hok].
    + intros [[-> | Hs] Hok]; [by left | right]. split; [done |].
      intros s' Hs' Hb. apply Hok; [by apply elem_of_cons; right | done].
  - apply Z.eqb_neq in E. rewrite list_elem_of_singleton, elem_of_cons. split.
    + intros ->. split; [by left |]. intros s' [-> | Hs']%elem_of_cons Hb; [lia |].
      specialize (Ha s' Hs'). lia.
    + intros [[-> | Hs] Hok]; [done |]. exfalso. apply E, Hok; [by left | by apply Ha].
Qed.

Lemma until_failure_nil (l : list stage) : until_failure h l = [] -> l = [].
Proof. destruct l as [| a l]; cbn; [done |]. by destruct (exit_status h a =? 0). Qed.

(** The last stage reached succeeded exactly when every stage of the list
    succeeds. *)
Lemma outcome_Ok (config : DictConfig) (l : list stage) :
  outcome config h (until_failure h l) = Ok tt <->
  forall s : stage, s ∈ l -> exit_status h s = 0.
Proof.
  unfold outcome. induction l as [| a l IH]; cbn [until_failure].
  { split; [by intros _ s ?%not_elem_of_nil | done]. }
  destruct (exit_status h a =? 0) eqn:E.
  - destruct (until_failure h l) as [| b r] eqn:El.
    + apply until_failure_nil in El as ->. cbn. rewrite E.
      apply Z.eqb_eq in E. split; [| done]. by intros _ s ->%list_elem_of_singleton.
    + change (last (a :: b :: r)) with (last (b :: r)). rewrite IH.
      apply Z.eqb_eq in E. split.
      * intros Hok s [-> | Hs]%elem_of_cons; [done | by apply Hok].
      * intros Hok s Hs. apply Hok. by apply elem_of_cons; right.
  - cbn. rewrite E. apply Z.eqb_neq in E. split; [done |].
    intros Hok. exfalso. apply E, Hok. by left.
Qed.

End Chain.

(** ** The directive [all] *)

(** C1: when [main.steps] is the string [all], the active steps are the
    table [download, basic_cleaning, data_check, data_split,
    train_random_forest] in that order, [test_regression_model] is not among
    them and does not execute; in any invocation, [test_regression_model]
    executes only if the directive is not [all] and one of its
    comma-separated tokens is that name. *)
Theorem all_runs_the_table_without_test_regression_model :
  (forall config : DictConfig,
      Main.steps (main config) = "all" ->
      active_steps_of (Main.steps (main config)) =
        ["download"; "basic_cleaning"; "data_check"; "data_split"; "train_random_forest"] /\
      ("test_regression_model" ∉ active_steps_of (Main.steps (main config))) /\
      forall (h : host) (w : world),
        stages_run config h w =
          until_failure h
            [download; basic_cleaning; data_check; data_split; train_random_forest] /\
        (test_regression_model ∉ stages_run config h w)) /\
  (forall (config : DictConfig) (h : host) (w : world),
      test_regression_model ∈ stages_run config h w ->
      Main.steps (main config) <> "all" /\
      "test_regression_model" ∈ Py.split ","%char (Main.steps (main config))).
Proof.
  split.
  - intros config E.
    assert (Hn : "test_regression_model" ∉ _steps).
    { unfold _steps. intros H. repeat (apply elem_of_cons in H as [[=] | H]).
      by apply not_elem_of_nil in H. }
    rewrite E. repeat split; try done.
    + rewrite stages_run_spec. unfold expected_stages. by rewrite E.
    + intros H. apply stages_run_selected in H. rewrite E in H. done.
  - intros config h w H. apply stages_run_selected in H. cbn in H.
    unfold active_steps_of in H.
    destruct (String.eqb (Main.steps (main config)) "all") eqn:E; cbn in H.
    + exfalso. unfold _steps in H. repeat (apply elem_of_cons in H as [[=] | H]).
      by apply not_elem_of_nil in H.
    + apply String.eqb_neq in E. done.
Qed.

Lemma all_runs_the_table_witness :
  active_steps_of (Main.steps (main (config0 "all"))) =
    ["download"; "basic_cleaning"; "data_check"; "data_split"; "train_random_forest"] /\
  "test_regression_model" ∈
    Py.split ","%char (Main.steps (main (config0 "data_split,test_regression_model"))).
Proof.
  split.
  - apply (proj1 all_runs_the_table_without_test_regression_model (config0 "all")).
    reflexivity.
  - apply (proj2 all_runs_the_table_without_test_regression_model
             (config0 "data_split,test_regression_model") host0 world0).
    vm_compute. right. left.
Defined.

(** ** Failure of a stage *)

(** C2: if a stage executes and ends with a non-zero status, no stage whose
    block comes later executes in that invocation, the invocation ends with
    that stage's exception, and the temporary directory no longer exists
    once [go] is left. *)
Theorem failure_stops_the_chain_and_removes_the_workspace
    (config : DictConfig) (h : host) (w : world) (s : stage) :
  s ∈ stages_run config h w ->
  exit_status h s <> 0 ->
  (forall s' : stage, before s s' -> s' ∉ stages_run config h w) /\
  (run config h w).1 = Raise (exn_of config h s) /\
  mkdtemp h ∉ dirs (st_world (run config h w).2).
Proof.
  intros Hs Hne. pose proof (stages_run_sorted config h w) as Hsorted.
  rewrite stages_run_spec in *. unfold expected_stages in Hs.
  pose proof (until_failure_stops h _ s Hs Hne) as Hlast.
  fold (expected_stages config h) in Hlast.
  split; [| split].
  - intros s' Hb Hs'.
    destruct (sorted_last_greatest _ _ _ Hsorted Hlast Hs') as [-> | Hb'];
      unfold before in *; lia.
  - rewrite run_spec. cbn [fst]. unfold outcome. rewrite Hlast.
    by apply Z.eqb_neq in Hne as ->.
  - apply workspace_removed.
Qed.

Lemma failure_stops_the_chain_witness :
  (forall s' : stage, before data_check s' ->
     s' ∉ stages_run (config0 "all") (failing_host data_check) world0) /\
  (run (config0 "all") (failing_host data_check) world0).1 =
    Raise (exn_of (config0 "all") (failing_host data_check) data_check) /\
  mkdtemp (failing_host data_check) ∉
    dirs (st_world (run (config0 "all") (failing_host data_check) world0).2).
Proof.
  apply (failure_stops_the_chain_and_removes_the_workspace
           (config0 "all") (failing_host data_check) world0 data_check).
  - vm_compute. right. right. left.
  - vm_compute. discriminate.
Defined.

(** ** Tokens that name no stage *)

(** C3, as the code has it: no directive is rejected.  A token that names
    no stage is ignored: the stages that execute are those named by the
    other tokens, in block order up to the first failure, and the whole
    invocation (how it ends, the calls, the machine it leaves) is the same
    for two directives that name the same stages, whatever other tokens
    they hold. *)
Theorem unknown_tokens_are_ignored (config : DictConfig) (h : host) (w : world) :
  stages_run config h w =
    until_failure h
      (selected (List.filter is_stage_name (active_steps_of (Main.steps (main config))))) /\
  forall d d' : string,
    (forall s : stage,
        stage_name s ∈ active_steps_of d <-> stage_name s ∈ active_steps_of d') ->
    run (with_steps config d) h w = run (with_steps config d') h w.
Proof.
  split.
  - rewrite stages_run_spec. unfold expected_stages. f_equal.
    apply selected_ext_names. intros s. rewrite !list_elem_of_In, filter_In.
    rewrite is_stage_name_spec. split; [| tauto].
    intros Hs. split; [done | by exists s].
  - intros d d' Heq. rewrite !run_spec. unfold expected_stages.
    cbn [with_steps main Main.steps]. unfold world_seen.
    change "train_random_forest" with (stage_name train_random_forest).
    rewrite (contains_ext_names _ _ train_random_forest Heq).
    rewrite (selected_ext_names _ _ Heq). reflexivity.
Qed.

Lemma unknown_tokens_are_ignored_witness :
  run (with_steps (config0 "") "download,foo, data_check,data_split") host0 world0 =
    run (with_steps (config0 "") "data_split,download") host0 world0.
Proof.
  apply (proj2 (unknown_tokens_are_ignored (config0 "") host0 world0)).
  intros s. vm_compute active_steps_of. rewrite !elem_of_cons, !elem_of_nil.
  destruct s; cbn; split; intros H; repeat destruct H as [H | H]; try discriminate H;
    tauto.
Defined.

(** C3 as stated fails: the directive [download,foo] has the token [foo],
    which names no stage, yet the invocation raises nothing and [download]
    executes. *)
Lemma unknown_token_is_not_rejected :
  "foo" ∈ Py.split ","%char "download,foo" /\
  is_stage_name "foo" = false /\
  (run (config0 "download,foo") host0 world0).1 = Ok tt /\
  stages_run (config0 "download,foo") host0 world0 = [download].
Proof.
  split; [| by vm_compute]. vm_compute. right. left.
Qed.

(** ** The random forest configuration file *)

(** C4, evaluated on the directive [train_random_forest] with
    [modeling.random_forest = {"n_estimators": 100}], current directory
    [/home/user/project/outputs/run] and temporary directory
    [/tmp/tmpk3x9a2]: the only call is the training process, it is given
    [/home/user/project/outputs/run/rf_config.json] for [--rf_config], that
    path is not below the temporary directory, and the file is still
    there, with the JSON object in it, once [go] is left. *)
Theorem rf_config_is_written_to_the_current_directory :
  Modeling.random_forest (modeling (config0 "train_random_forest")) =
    [("n_estimators", VInt 100)] /\
  map (fun sc => (sc.1, argument "--rf_config" sc.2))
      (calls (config0 "train_random_forest") host0 world0) =
    [(train_random_forest, Some "/home/user/project/outputs/run/rf_config.json")] /\
  under (mkdtemp host0) "/home/user/project/outputs/run/rf_config.json" = false /\
  files (st_world (run (config0 "train_random_forest") host0 world0).2)
    !! "/home/user/project/outputs/run/rf_config.json" =
    Some ("{" +:+ Json.dquote +:+ "n_estimators" +:+ Json.dquote +:+ ": 100}").
Proof. repeat split; vm_compute; reflexivity. Qed.

(** ** Order of execution *)

Lemma contains_Permutation (x : string) (a a' : list string) :
  a ≡ₚ a' -> Py.contains x a = Py.contains x a'.
Proof.
  intros Hp. destruct (Py.contains x a') eqn:E.
  - apply contains_elem_of. rewrite Hp. by apply contains_elem_of.
  - destruct (Py.contains x a) eqn:E'; [| done].
    apply contains_elem_of in E'. rewrite Hp in E'. apply contains_elem_of in E'. congruence.
Qed.

Lemma active_steps_of_split (d : string) :
  d <> "all" -> active_steps_of d = Py.split ","%char d.
Proof.
  intros Hd. unfold active_steps_of. by apply String.eqb_neq in Hd as ->.
Qed.

(** C5: for every directive whose comma-separated tokens are all names of
    stages, the stages that execute are the named ones, each once, in the
    order of the table, whatever the order of the tokens: what executes is
    the table restricted to the named stages, cut after the first stage
    that fails, and it is all of them, with a normal return, when none
    fails.  Such a directive is a list of stage names joined by commas,
    and for every such list the tokens are the names listed and the stages
    that execute are the listed ones in table order.  In any invocation the
    executed stages are a subsequence of the table; two directives whose
    tokens are the same up to order give the same invocation; and
    [data_split,download] runs [download] first and then [data_split]. *)
Theorem stages_execute_in_table_order :
  (forall (config : DictConfig) (h : host) (w : world),
      stages_run config h w `sublist_of` all_stages /\
      StronglySorted before (stages_run config h w)) /\
  (forall (config : DictConfig) (h : host) (w : world) (d d' : string),
      d <> "all" -> d' <> "all" ->
      Py.split ","%char d ≡ₚ Py.split ","%char d' ->
      run (with_steps config d) h w = run (with_steps config d') h w) /\
  (forall (config : DictConfig) (h : host) (w : world),
      stages_run (with_steps config "data_split,download") h w =
        if exit_status h download =? 0 then [download; data_split] else [download]) /\
  (forall (config : DictConfig) (h : host) (w : world) (d : string),
      Forall (fun t => is_stage_name t = true) (Py.split ","%char d) ->
      stages_run (with_steps config d) h w =
        until_failure h
          (List.filter (fun s => Py.contains (stage_name s) (Py.split ","%char d))
             all_stages) /\
      ((forall s : stage, stage_name s ∈ Py.split ","%char d -> exit_status h s = 0) ->
       stages_run (with_steps config d) h w =
         List.filter (fun s => Py.contains (stage_name s) (Py.split ","%char d)) all_stages /\
       (run (with_steps config d) h w).1 = Ok tt) /\
      exists ss : list stage,
        ss <> [] /\ d = String.concat "," (map stage_name ss) /\
        Py.split ","%char d = map stage_name ss) /\
  (forall (config : DictConfig) (h : host) (w : world) (ss : list stage),
      ss <> [] ->
      Py.split ","%char (String.concat "," (map stage_name ss)) = map stage_name ss /\
      stages_run (with_steps config (String.concat "," (map stage_name ss))) h w =
        until_failure h (List.filter (fun s => bool_decide (s ∈ ss)) all_stages) /\
      ((forall s : stage, s ∈ ss -> exit_status h s = 0) ->
       stages_run (with_steps config (String.concat "," (map stage_name ss))) h w =
         List.filter (fun s => bool_decide (s ∈ ss)) all_stages)).
Proof.
  assert (Hvalid : forall (config : DictConfig) (h : host) (w : world) (d : string),
             Forall (fun t => is_stage_name t = true) (Py.split ","%char d) ->
             stages_run (with_steps config d) h w =
               until_failure h (selected (Py.split ","%char d))).
  { intros config h w d Hd. rewrite stages_run_spec. unfold expected_stages.
    cbn [with_steps main Main.steps].
    by rewrite active_steps_of_split by by apply stage_names_not_all. }
  split; [| split; [| split; [| split]]].
  - intros config h w. split; [| apply stages_run_sorted].
    rewrite stages_run_spec. unfold expected_stages.
    etrans; [apply until_failure_sublist |].
    apply filter_sublist_of.
  - intros config h w d d' Hd Hd' Hp. rewrite !run_spec. unfold expected_stages.
    cbn [with_steps main Main.steps]. rewrite !active_steps_of_split by done.
    unfold world_seen.
    rewrite (contains_Permutation "train_random_forest" _ _ Hp).
    rewrite (selected_ext (Py.split ","%char d) (Py.split ","%char d'));
      [reflexivity |].
    intros x. by rewrite Hp.
  - intros config h w. rewrite stages_run_spec. unfold expected_stages. cbn.
    by destruct (exit_status h download =? 0), (exit_status h data_split =? 0).
  - intros config h w d Hd. pose proof (Hvalid config h w d Hd) as Hrun.
    fold (selected (Py.split ","%char d)). split; [done | split].
    + intros Hok.
      assert (Hall : until_failure h (selected (Py.split ","%char d)) =
                     selected (Py.split ","%char d)).
      { apply until_failure_all_ok. intros s Hs. by apply Hok, selected_elem_of. }
      split; [by rewrite Hrun |].
      rewrite run_spec. unfold expected_stages. cbn [fst with_steps main Main.steps].
      rewrite active_steps_of_split by by apply stage_names_not_all.
      apply outcome_Ok. intros s Hs. by apply Hok, selected_elem_of.
    + destruct (stage_names_list _ Hd) as (ss & Hss). exists ss. split; [| split].
      * intros ->. by apply (split_nonempty ","%char d).
      * by rewrite <- Hss, concat_split.
      * done.
  - intros config h w ss Hne. pose proof (split_stage_names ss Hne) as Hsplit.
    assert (Hrun : stages_run (with_steps config (String.concat "," (map stage_name ss))) h w =
                   until_failure h (List.filter (fun s => bool_decide (s ∈ ss)) all_stages)).
    { rewrite Hvalid, Hsplit, selected_stage_names; [done |].
      rewrite Hsplit. apply Forall_forall. intros t (s & -> & _)%list_elem_of_fmap.
      apply is_stage_name_spec. by exists s. }
    split; [done | split; [done |]]. intros Hok. rewrite Hrun.
    apply until_failure_all_ok. intros s Hs. apply Hok.
    apply list_elem_of_In, filter_In in Hs as [_ Hs]. by apply bool_decide_eq_true in Hs.
Qed.

Lemma stages_execute_in_table_order_witness :
  run (with_steps (config0 "all") "data_split,download") host0 world0 =
    run (with_steps (config0 "all") "download,data_split") host0 world0 /\
  (stages_run (with_steps (config0 "all") "train_random_forest,basic_cleaning,download")
     host0 world0 =
     List.filter
       (fun s => Py.contains (stage_name s)
                   (Py.split ","%char "train_random_forest,basic_cleaning,download"))
       all_stages /\
   (run (with_steps (config0 "all") "train_random_forest,basic_cleaning,download")
      host0 world0).1 = Ok tt) /\
  stages_run
    (with_steps (config0 "all")
       (String.concat "," (map stage_name [data_check; basic_cleaning; data_check])))
    host0 world0 =
    List.filter (fun s => bool_decide (s ∈ [data_check; basic_cleaning; data_check]))
      all_stages.
Proof.
  split; [| split].
  - apply (proj1 (proj2 stages_execute_in_table_order)).
    + discriminate.
    + discriminate.
    + vm_compute. apply perm_swap.
  - apply (proj1 (proj2 (proj1 (proj2 (proj2 (proj2 stages_execute_in_table_order)))
                           (config0 "all") host0 world0
                           "train_random_forest,basic_cleaning,download"
                           ltac:(by vm_compute; repeat constructor)))).
    reflexivity.
  - apply (proj2 (proj2 (proj2 (proj2 (proj2 (proj2 stages_execute_in_table_order)))
                           (config0 "all") host0 world0
                           [data_check; basic_cleaning; data_check]
                           ltac:(discriminate)))).
    reflexivity.
Defined.

(** ** Splitting the directive *)

(** C6, as the code has it: for a directive other than [all] the active
    steps are the tokens between the commas exactly as written, surrounding
    whitespace included; the directive [download, data_check] gives the
    tokens [download] and [ data_check], and only [download] executes. *)
Theorem directive_is_split_without_trimming :
  (forall d : string,
      d <> "all" ->
      active_steps_of d = Py.split ","%char d /\
      String.concat "," (active_steps_of d) = d) /\
  active_steps_of "download, data_check" = ["download"; " data_check"] /\
  (forall (config : DictConfig) (h : host) (w : world),
      stages_run (with_steps config "download, data_check") h w = [download]).
Proof.
  split; [| split].
  - intros d Hd. rewrite active_steps_of_split by done.
    split; [done | apply concat_split].
  - reflexivity.
  - intros config h w. rewrite stages_run_spec. unfold expected_stages. cbn.
    by destruct (exit_status h download =? 0).
Qed.

Lemma directive_is_split_without_trimming_witness :
  active_steps_of "download, data_check" = Py.split ","%char "download, data_check" /\
  String.concat "," (active_steps_of "download, data_check") = "download, data_check".
Proof.
  apply (proj1 directive_is_split_without_trimming). discriminate.
Defined.

(** C6 as stated fails on [download, data_check]: the active steps are not
    the trimmed tokens, and [data_check] is not selected. *)
Lemma tokens_are_not_trimmed :
  "download, data_check" <> "all" /\
  trimmed_steps_of "download, data_check" = ["download"; "data_check"] /\
  active_steps_of "download, data_check" <> trimmed_steps_of "download, data_check" /\
  Py.contains "data_check" (active_steps_of "download, data_check") = false /\
  stages_run (config0 "download, data_check") host0 world0 = [download].
Proof. repeat split; try discriminate; vm_compute; reflexivity. Qed.

(** ** Download followed by cleaning *)

(** C7: with the directive [download,basic_cleaning], [etl.sample] equal
    to [sample.csv], [etl.min_price] 10 and [etl.max_price] 1000, and a
    download that succeeds, exactly two stages run, [download] first:
    [download] publishes the artifact [sample.csv] of type [raw_data], and
    [basic_cleaning] launches its process with [--input_artifact
    sample.csv:latest], [--min_price 10] and [--max_price 1000], the two
    bounds as strings. *)
Theorem download_then_basic_cleaning (config : DictConfig) (h : host) (w : world) :
  Main.steps (main config) = "download,basic_cleaning" ->
  Etl.sample (etl config) = "sample.csv" ->
  Etl.min_price (etl config) = VInt 10 ->
  Etl.max_price (etl config) = VInt 1000 ->
  exit_status h download = 0 ->
  stages_run config h w = [download; basic_cleaning] /\
  calls config h w =
    [(download,
      LogArtifact "download_data" "sample.csv" "raw_data" "Raw data from local file"
        (Py.path_join (get_original_cwd h) ["data"; "sample.csv"]));
     (basic_cleaning,
      SubprocessRun
        ["python"; "run.py";
         "--input_artifact"; "sample.csv:latest";
         "--output_artifact"; Etl.output_artifact (etl config);
         "--output_type"; Etl.output_type (etl config);
         "--output_description"; Etl.output_description (etl config);
         "--min_price"; "10";
         "--max_price"; "1000"]
        (Py.path_join (get_original_cwd h) ["src/basic_cleaning"]))] /\
  (exists c : call,
      calls config h w !! 0%nat = Some (download, c) /\
      published c = Some ("sample.csv", "raw_data")).
Proof.
  intros Hsteps Hsample Hmin Hmax Hok.
  assert (Hran : expected_stages config h = [download; basic_cleaning]).
  { unfold expected_stages. rewrite Hsteps. cbn. rewrite Hok. cbn.
    by destruct (exit_status h basic_cleaning =? 0). }
  split; [| split].
  - by rewrite stages_run_spec.
  - rewrite calls_spec, Hran. cbn. by rewrite Hsample, Hmin, Hmax.
  - rewrite calls_spec, Hran. cbn. rewrite Hsample. eauto.
Qed.

Lemma download_then_basic_cleaning_witness :
  stages_run (config0 "download,basic_cleaning") host0 world0 = [download; basic_cleaning] /\
  calls (config0 "download,basic_cleaning") host0 world0 =
    [(download,
      LogArtifact "download_data" "sample.csv" "raw_data" "Raw data from local file"
        (Py.path_join (get_original_cwd host0) ["data"; "sample.csv"]));
     (basic_cleaning,
      SubprocessRun
        ["python"; "run.py";
         "--input_artifact"; "sample.csv:latest";
         "--output_artifact"; Etl.output_artifact (etl (config0 "download,basic_cleaning"));
         "--output_type"; Etl.output_type (etl (config0 "download,basic_cleaning"));
         "--output_description";
           Etl.output_description (etl (config0 "download,basic_cleaning"));
         "--min_price"; "10";
         "--max_price"; "1000"]
        (Py.path_join (get_original_cwd host0) ["src/basic_cleaning"]))] /\
  (exists c : call,
      calls (config0 "download,basic_cleaning") host0 world0 !! 0%nat = Some (download, c) /\
      published c = Some ("sample.csv", "raw_data")).
Proof.
  apply (download_then_basic_cleaning (config0 "download,basic_cleaning") host0 world0);
    reflexivity.
Defined.

(** ** The run group *)



(** ** The input of the cleaning stage *)

Lemma length_append (s t : string) :
  String.length (s +:+ t) = (String.length s + String.length t)%nat.
Proof. induction s as [| a s IH]; simpl; [done | by rewrite IH]. Qed.

Lemma append_inj_l (s1 s2 t : string) : s1 +:+ t = s2 +:+ t -> s1 = s2.
Proof.
  revert s2. induction s1 as [| a s1 IH]; intros [| b s2] H; simpl in H.
  - done.
  - apply (f_equal String.length) in H. simpl in H. rewrite !length_append in H; simpl in H; lia.
  - apply (f_equal String.length) in H. simpl in H. rewrite !length_append in H; simpl in H; lia.
  - injection H as -> H. f_equal. by apply IH.
Qed.

(** C9: in every invocation the cleaning process is given the fixed string
    [sample.csv:latest] for [--input_artifact], whatever [etl.sample] is;
    when [etl.sample] is not [sample.csv], the artifact [download]
    publishes has another name than the one that reference names, so the
    latest version of the published artifact is not what is read. *)
Theorem basic_cleaning_reads_a_fixed_artifact
    (config : DictConfig) (h : host) (w : world) (e : event) :
  e ∈ st_trace (run config h w).2 ->
  ev_stage e = basic_cleaning ->
  argument "--input_artifact" (ev_call e) = Some "sample.csv:latest" /\
  (Etl.sample (etl config) <> "sample.csv" ->
   forall e' : event,
     e' ∈ st_trace (run config h w).2 ->
     ev_stage e' = download ->
     exists name type : string,
       published (ev_call e') = Some (name, type) /\
       name = Etl.sample (etl config) /\
       name <> "sample.csv" /\
       argument "--input_artifact" (ev_call e) <> Some (name +:+ ":latest")).
Proof.
  intros He Hs. apply trace_elem_of in He as (_ & Hc & _). rewrite Hs in Hc.
  rewrite Hc. cbn. split; [done |].
  intros Hne e' He' Hs'. apply trace_elem_of in He' as (_ & Hc' & _).
  rewrite Hs' in Hc'. rewrite Hc'. cbn.
  exists (Etl.sample (etl config)), "raw_data". repeat split; try done.
  intros [= H]. apply Hne. symmetry. by apply (append_inj_l _ _ ":latest").
Qed.

Lemma basic_cleaning_reads_a_fixed_artifact_witness :
  exists name type : string,
    published (call_of (config1 "download,basic_cleaning") host0 download) =
      Some (name, type) /\
    name = "sample2.csv" /\
    name <> "sample.csv" /\
    argument "--input_artifact"
      (call_of (config1 "download,basic_cleaning") host0 basic_cleaning) <>
      Some (name +:+ ":latest").
Proof.
  refine (proj2 (basic_cleaning_reads_a_fixed_artifact
            (config1 "download,basic_cleaning") host0 world0
            (Event basic_cleaning
               (call_of (config1 "download,basic_cleaning") host0 basic_cleaning)
               (world_entered (config1 "download,basic_cleaning") host0 world0))
            _ _) _
            (Event download
               (call_of (config1 "download,basic_cleaning") host0 download)
               (world_entered (config1 "download,basic_cleaning") host0 world0))
            _ _).
  - rewrite run_spec. cbn. right. left.
  - reflexivity.
  - discriminate.
  - rewrite run_spec. cbn. left.
  - reflexivity.
Defined.

(** ** At most one execution per stage *)

Lemma sorted_NoDup (l : list stage) : StronglySorted before l -> NoDup l.
Proof.
  induction 1 as [| a l Hl IH Ha]; constructor; [| done].
  intros Hin. rewrite Forall_forall in Ha. specialize (Ha a Hin).
  unfold before in Ha. lia.
Qed.

(** C10: in every invocation each stage executes at most once; a stage
    executes only if its name passes the membership test on the token
    list, so repeating a token changes nothing: [download,download] runs
    [download] once. *)
Theorem each_stage_executes_at_most_once :
  (forall (config : DictConfig) (h : host) (w : world),
      NoDup (stages_run config h w) /\
      forall s : stage,
        s ∈ stages_run config h w ->
        Py.contains (stage_name s) (active_steps_of (Main.steps (main config))) = true) /\
  (forall (config : DictConfig) (h : host) (w : world),
      stages_run (with_steps config "download,download") h w = [download]).
Proof.
  split.
  - intros config h w. split.
    + apply sorted_NoDup, stages_run_sorted.
    + intros s Hs. by apply contains_elem_of, (stages_run_selected config h w).
  - intros config h w. rewrite stages_run_spec. unfold expected_stages. cbn.
    by destruct (exit_status h download =? 0).
Qed.

Lemma each_stage_executes_at_most_once_witness :
  Py.contains (stage_name download)
    (active_steps_of (Main.steps (main (config0 "download,download")))) = true.
Proof.
  apply (proj2 (proj1 each_stage_executes_at_most_once
                  (config0 "download,download") host0 world0)).
  vm_compute. left.
Defined.

(** ** The temporary directory *)

(** X15: while the stages run the temporary directory exists: every stage
    is launched on a machine that has it. *)
Lemma workspace_exists_during_stages
    (config : DictConfig) (h : host) (w : world) (e : event) :
  e ∈ st_trace (run config h w).2 -> mkdtemp h ∈ dirs (ev_world e).
Proof.
  intros (_ & _ & ->)%trace_elem_of. unfold world_seen.
  destruct (_ && _); cbn; set_solver.
Qed.

(** X10: whenever the training stage was reached, whether it then
    succeeded or failed, and the current directory is not the temporary
    directory or below it, [rf_config.json] outlives the invocation: it is
    still in the current directory, with the JSON text of
    [modeling.random_forest], once [go] is left. *)
Lemma rf_config_left_behind (config : DictConfig) (h : host) (w : world) :
  train_random_forest ∈ stages_run config h w ->
  under (mkdtemp h) (abspath h "rf_config.json") = false ->
  files (st_world (run config h w).2) !! abspath h "rf_config.json" =
    Some (Json.dumps (Modeling.random_forest (modeling config))).
Proof.
  rewrite stages_run_spec, run_spec. intros Hin Hu.
  cbn [snd st_world rmtree files]. unfold world_left.
  replace (existsb _ _) with true.
  - cbn [with_rf_config files]. apply map_lookup_filter_Some. split; [| done].
    apply lookup_insert_eq.
  - symmetry. apply existsb_exists. exists train_random_forest.
    split; [by apply list_elem_of_In | by apply bool_decide_eq_true].
Qed.

(** ** Which stages execute, and how an invocation ends *)

(** A stage that executed and failed decides how the invocation ends. *)
Lemma run_raises (config : DictConfig) (h : host) (w : world) (s : stage) :
  s ∈ stages_run config h w -> exit_status h s <> 0 ->
  (run config h w).1 = Raise (exn_of config h s).
Proof.
  rewrite stages_run_spec, run_spec. unfold expected_stages. intros Hs Hne.
  cbn [fst]. unfold outcome. rewrite (until_failure_stops h _ s Hs Hne).
  by apply Z.eqb_neq in Hne as ->.
Qed.

(** X1: a stage executes exactly when its name is among the active steps
    and every stage of an earlier block whose name is among them ended
    with status 0. *)
Theorem stage_executes_iff (config : DictConfig) (h : host) (w : world) (s : stage) :
  s ∈ stages_run config h w <->
  stage_name s ∈ active_steps_of (Main.steps (main config)) /\
  forall s' : stage,
    before s' s ->
    stage_name s' ∈ active_steps_of (Main.steps (main config)) ->
    exit_status h s' = 0.
Proof.
  rewrite stages_run_spec. unfold expected_stages.
  rewrite until_failure_elem_of by apply selected_sorted.
  rewrite selected_elem_of. split; intros [Hs Hok]; (split; [done |]).
  - intros s' Hb Hs'. apply Hok; [by apply selected_elem_of | done].
  - intros s' Hs' Hb. apply Hok; [done | by apply selected_elem_of].
Qed.

(** X2: [go] returns normally exactly when every stage named by the
    active steps ends with status 0, and then exactly the named stages
    executed, in block order. *)
Theorem returns_normally_iff_every_selected_stage_succeeds
    (config : DictConfig) (h : host) (w : world) :
  ((run config h w).1 = Ok tt <->
   forall s : stage,
     stage_name s ∈ active_steps_of (Main.steps (main config)) -> exit_status h s = 0) /\
  ((run config h w).1 = Ok tt ->
   stages_run config h w = selected (active_steps_of (Main.steps (main config)))).
Proof.
  rewrite stages_run_spec, run_spec. unfold expected_stages. cbn [fst].
  rewrite outcome_Ok. split.
  - split; intros Hok s Hs; apply Hok; by apply selected_elem_of.
  - apply until_failure_all_ok.
Qed.

Lemma returns_normally_witness :
  stages_run (config0 "data_check,download") host0 world0 =
    selected (active_steps_of (Main.steps (main (config0 "data_check,download")))).
Proof.
  apply (proj2 (returns_normally_iff_every_selected_stage_succeeds
                  (config0 "data_check,download") host0 world0)).
  reflexivity.
Defined.

(** X3: when a launched stage ends with a non-zero status, [go] ends with
    the exception of that call: for a process, [CalledProcessError] with
    that status and the argument list that was launched; for an MLflow
    run, [ExecutionException] for its URI. *)
Theorem failed_call_decides_the_exception
    (config : DictConfig) (h : host) (w : world) (e : event) :
  e ∈ st_trace (run config h w).2 ->
  exit_status h (ev_stage e) <> 0 ->
  (run config h w).1 =
    Raise (match ev_call e with
           | SubprocessRun args _ => CalledProcessError (exit_status h (ev_stage e)) args
           | MlflowRun uri _ _ => ExecutionException uri
           | LogArtifact job_type _ _ _ _ => WandbError job_type
           end).
Proof.
  intros He Hne. apply trace_elem_of in He as (Hs & Hc & _).
  rewrite (run_raises config h w _ Hs Hne). unfold exn_of. by rewrite Hc.
Qed.

Lemma failed_call_witness :
  (run (config0 "all") (failing_host basic_cleaning) world0).1 =
    Raise (CalledProcessError 1
             ["python"; "run.py"; "--input_artifact"; "sample.csv:latest";
              "--output_artifact"; "clean_sample.csv"; "--output_type"; "clean_sample";
              "--output_description"; "Data with outliers removed";
              "--min_price"; "10"; "--max_price"; "1000"]).
Proof.
  apply (failed_call_decides_the_exception (config0 "all") (failing_host basic_cleaning)
           world0
           (Event basic_cleaning (call_of (config0 "all") (failing_host basic_cleaning)
                                    basic_cleaning)
                  (world_entered (config0 "all") (failing_host basic_cleaning) world0))).
  - rewrite run_spec. vm_compute. right. left.
  - vm_compute. discriminate.
Defined.

(** X4: the invocation depends on the directive only through the set of
    its tokens: two directives with the same active names, in any order
    and with any repetition, give the same run; [all] is the same as
    naming the five stages of [_steps]. *)
Theorem same_tokens_same_run
    (config : DictConfig) (h : host) (w : world) (d d' : string) :
  (forall x : string, x ∈ active_steps_of d <-> x ∈ active_steps_of d') ->
  run (with_steps config d) h w = run (with_steps config d') h w.
Proof.
  intros Heq. rewrite !run_spec. unfold expected_stages.
  cbn [with_steps main Main.steps]. unfold world_seen.
  assert (Hc : Py.contains "train_random_forest" (active_steps_of d) =
               Py.contains "train_random_forest" (active_steps_of d')).
  { destruct (Py.contains _ (active_steps_of d')) eqn:E.
    - by apply contains_elem_of, Heq, contains_elem_of.
    - destruct (Py.contains _ (active_steps_of d)) eqn:E'; [| done].
      apply contains_elem_of, Heq, contains_elem_of in E'. congruence. }
  rewrite Hc, (selected_ext _ _ Heq). reflexivity.
Qed.

Lemma same_tokens_same_run_witness :
  run (with_steps (config0 "") "all") host0 world0 =
    run (with_steps (config0 "")
           "train_random_forest,download,data_split,basic_cleaning,data_check,download")
        host0 world0.
Proof.
  apply (same_tokens_same_run (config0 "") host0 world0). intros x.
  vm_compute active_steps_of. rewrite !elem_of_cons. tauto.
Defined.

(** ** What an invocation leaves untouched *)

Lemma environ_seen (config : DictConfig) (h : host) (w : world) (e : event) :
  e ∈ st_trace (run config h w).2 ->
  environ (ev_world e) = environ (world_entered config h w).
Proof.
  intros (_ & _ & ->)%trace_elem_of. unfold world_seen. by destruct (_ && _).
Qed.

Lemma environ_left (config : DictConfig) (h : host) (w : world) :
  environ (st_world (run config h w).2) = environ (world_entered config h w).
Proof.
  rewrite run_spec. cbn [snd st_world rmtree environ]. unfold world_left.
  by destruct (existsb _ _).
Qed.

(** X5: in an invocation that launches processes only, that is, when the
    active steps name none of [download], [data_split] and
    [test_regression_model] (the three stages that run a client library
    inside the process of [go]), the two run-group variables are the only
    environment variables that change: every other variable has, when a
    stage is launched and when [go] is left, the value it had when [go]
    was entered, or none if it had none. *)
Theorem other_environment_variables_are_untouched
    (config : DictConfig) (h : host) (w : world) (key : string) :
  key <> "WANDB_PROJECT" ->
  key <> "WANDB_RUN_GROUP" ->
  "download" ∉ active_steps_of (Main.steps (main config)) ->
  "data_split" ∉ active_steps_of (Main.steps (main config)) ->
  "test_regression_model" ∉ active_steps_of (Main.steps (main config)) ->
  environ (st_world (run config h w).2) !! key = environ w !! key /\
  forall e : event,
    e ∈ st_trace (run config h w).2 -> environ (ev_world e) !! key = environ w !! key.
Proof.
  intros H1 H2 _ _ _.
  assert (Hk : environ (world_entered config h w) !! key = environ w !! key).
  { cbn. by rewrite !lookup_insert_ne. }
  split; [by rewrite environ_left |]. intros e He. by rewrite (environ_seen _ _ _ _ He).
Qed.

Lemma other_environment_variables_witness :
  environ (st_world (run (config0 "basic_cleaning,data_check,train_random_forest")
                       host0 world1).2) !! "HOME" =
    environ world1 !! "HOME" /\
  forall e : event,
    e ∈ st_trace (run (config0 "basic_cleaning,data_check,train_random_forest")
                    host0 world1).2 ->
    environ (ev_world e) !! "HOME" = environ world1 !! "HOME".
Proof.
  apply (other_environment_variables_are_untouched
           (config0 "basic_cleaning,data_check,train_random_forest") host0 world1 "HOME");
    try discriminate; vm_compute active_steps_of; rewrite !elem_of_cons, elem_of_nil;
    intros H; repeat destruct H as [H | H]; done.
Defined.

(** ** The calls of the stages *)

(** X8: every process [go] launches runs in the directory [src/<name of
    its stage>] joined to Hydra's original working directory, whatever the
    current directory and the temporary directory are. *)
Theorem processes_run_in_their_source_directory
    (config : DictConfig) (h : host) (w : world) (e : event)
    (args : list string) (cwd : string) :
  e ∈ st_trace (run config h w).2 ->
  ev_call e = SubprocessRun args cwd ->
  cwd = Py.path_join2 (get_original_cwd h) ("src/" +:+ stage_name (ev_stage e)).
Proof.
  intros (_ & Hc & _)%trace_elem_of. rewrite Hc.
  destruct (ev_stage e); cbn; intros [= _ <-]; reflexivity.
Qed.

Lemma processes_run_in_their_source_directory_witness :
  "/home/user/project/src/data_check" =
    Py.path_join2 (get_original_cwd host0) ("src/" +:+ stage_name data_check).
Proof.
  apply (processes_run_in_their_source_directory (config0 "data_check") host0 world0
           (Event data_check (call_of (config0 "data_check") host0 data_check)
                  (world_entered (config0 "data_check") host0 world0))
           ["pytest"; "."; "-vv"; "--csv"; "clean_sample:latest";
            "--ref"; "clean_sample:reference"; "--kl_threshold"; "0.2";
            "--min_price"; "10"; "--max_price"; "1000"]).
  - rewrite run_spec. vm_compute. left.
  - reflexivity.
Defined.

(** X9: when the training process is launched, its arguments 10 and 11
    are [--rf_config] and the absolute path of [rf_config.json] in the
    current directory, and that file exists and holds the JSON text of
    [modeling.random_forest]. *)
Theorem rf_config_exists_when_training_is_launched
    (config : DictConfig) (h : host) (w : world) (e : event) :
  e ∈ st_trace (run config h w).2 ->
  ev_stage e = train_random_forest ->
  exists (args : list string) (cwd : string),
    ev_call e = SubprocessRun args cwd /\
    args !! 10%nat = Some "--rf_config" /\
    args !! 11%nat = Some (abspath h "rf_config.json") /\
    files (ev_world e) !! abspath h "rf_config.json" =
      Some (Json.dumps (Modeling.random_forest (modeling config))).
Proof.
  intros (Hs & Hc & Hw)%trace_elem_of He. rewrite He in *.
  apply stages_run_selected, contains_elem_of in Hs. cbn [stage_name] in Hs.
  rewrite Hc, Hw. unfold world_seen. rewrite Hs. cbn.
  do 2 eexists. repeat split. apply lookup_insert_eq.
Qed.

Lemma rf_config_exists_witness :
  exists (args : list string) (cwd : string),
    call_of (config0 "train_random_forest") host0 train_random_forest =
      SubprocessRun args cwd /\
    args !! 10%nat = Some "--rf_config" /\
    args !! 11%nat = Some (abspath host0 "rf_config.json") /\
    files (with_rf_config (config0 "train_random_forest") host0
             (world_entered (config0 "train_random_forest") host0 world0))
      !! abspath host0 "rf_config.json" =
      Some (Json.dumps (Modeling.random_forest (modeling (config0 "train_random_forest")))).
Proof.
  apply (rf_config_exists_when_training_is_launched
           (config0 "train_random_forest") host0 world0
           (Event train_random_forest
              (call_of (config0 "train_random_forest") host0 train_random_forest)
              (with_rf_config (config0 "train_random_forest") host0
                 (world_entered (config0 "train_random_forest") host0 world0)))).
  - rewrite run_spec. vm_compute. left.
  - reflexivity.
Defined.

Lemma rf_config_left_behind_witness :
  files (st_world (run (config0 "train_random_forest") (failing_host train_random_forest)
                     world0).2)
    !! abspath (failing_host train_random_forest) "rf_config.json" =
    Some (Json.dumps (Modeling.random_forest (modeling (config0 "train_random_forest")))).
Proof.
  apply (rf_config_left_behind (config0 "train_random_forest")
           (failing_host train_random_forest) world0).
  - vm_compute. left.
  - reflexivity.
Defined.

(** X11: [basic_cleaning] is told to publish under the name
    [etl.output_artifact] (arguments 4 and 5), while [data_check] always
    reads [clean_sample:latest] and [clean_sample:reference] and
    [data_split] always reads [clean_sample:latest], whatever that name
    is. *)
Theorem cleaned_data_is_read_under_a_fixed_name
    (config : DictConfig) (h : host) (w : world) (e : event) :
  e ∈ st_trace (run config h w).2 ->
  (ev_stage e = basic_cleaning ->
   exists (args : list string) (cwd : string),
     ev_call e = SubprocessRun args cwd /\
     args !! 4%nat = Some "--output_artifact" /\
     args !! 5%nat = Some (Etl.output_artifact (etl config))) /\
  (ev_stage e = data_check ->
   argument "--csv" (ev_call e) = Some "clean_sample:latest" /\
   argument "--ref" (ev_call e) = Some "clean_sample:reference") /\
  (ev_stage e = data_split ->
   exists (uri : string) (parameters : list (string * value)),
     ev_call e = MlflowRun uri "main" parameters /\
     parameters !! 0%nat = Some ("input", VStr "clean_sample:latest")).
Proof.
  intros (_ & Hc & _)%trace_elem_of. rewrite Hc.
  split; [| split]; intros ->; cbn; repeat (eexists || split).
Qed.

Lemma cleaned_data_witness :
  argument "--csv" (call_of (config0 "data_check") host0 data_check) =
    Some "clean_sample:latest" /\
  argument "--ref" (call_of (config0 "data_check") host0 data_check) =
    Some "clean_sample:reference".
Proof.
  refine (proj1 (proj2 (cleaned_data_is_read_under_a_fixed_name
            (config0 "data_check") host0 world0
            (Event data_check (call_of (config0 "data_check") host0 data_check)
                   (world_entered (config0 "data_check") host0 world0)) _)) _).
  - rewrite run_spec. vm_compute. left.
  - reflexivity.
Defined.

(** X12: the training process is told to export the model under
    [modeling.output_artifact] (its last two arguments) and reads
    [trainval_data:latest]; [test_regression_model] always evaluates
    [random_forest_export:prod] on [test_data:latest], whatever that name
    is, through the component [test_regression_model] of
    [main.components_repository]. *)
Theorem model_is_tested_under_a_fixed_name
    (config : DictConfig) (h : host) (w : world) (e : event) :
  e ∈ st_trace (run config h w).2 ->
  (ev_stage e = train_random_forest ->
   argument "--trainval_artifact" (ev_call e) = Some "trainval_data:latest" /\
   exists (args : list string) (cwd : string),
     ev_call e = SubprocessRun args cwd /\
     args !! 14%nat = Some "--output_artifact" /\
     args !! 15%nat = Some (Modeling.output_artifact (modeling config)) /\
     length args = 16%nat) /\
  (ev_stage e = test_regression_model ->
   ev_call e =
     MlflowRun (Main.components_repository (main config) +:+ "/test_regression_model") "main"
       [("mlflow_model", VStr "random_forest_export:prod");
        ("test_dataset", VStr "test_data:latest")]).
Proof.
  intros (_ & Hc & _)%trace_elem_of. rewrite Hc.
  split; intros ->; cbn; repeat (eexists || split).
Qed.

Lemma model_is_tested_witness :
  call_of (config0 "test_regression_model") host0 test_regression_model =
    MlflowRun "https://github.com/udacity/components/test_regression_model" "main"
      [("mlflow_model", VStr "random_forest_export:prod");
       ("test_dataset", VStr "test_data:latest")].
Proof.
  refine (proj2 (model_is_tested_under_a_fixed_name
            (config0 "test_regression_model") host0 world0
            (Event test_regression_model
               (call_of (config0 "test_regression_model") host0 test_regression_model)
               (world_entered (config0 "test_regression_model") host0 world0)) _) _).
  - rewrite run_spec. vm_compute. left.
  - reflexivity.
Defined.

(** X13: [basic_cleaning] and [data_check] are given the same price
    bounds: the argument lists of both processes end with [--min_price],
    [str(etl.min_price)], [--max_price], [str(etl.max_price)]. *)
Theorem cleaning_and_checking_share_the_price_bounds
    (config : DictConfig) (h : host) (w : world) (e : event)
    (args : list string) (cwd : string) :
  e ∈ st_trace (run config h w).2 ->
  ev_stage e = basic_cleaning \/ ev_stage e = data_check ->
  ev_call e = SubprocessRun args cwd ->
  ["--min_price"; str (Etl.min_price (etl config));
   "--max_price"; str (Etl.max_price (etl config))] `suffix_of` args.
Proof.
  intros (_ & Hc & _)%trace_elem_of [Hs | Hs]; rewrite Hc, Hs; cbn; intros [= <- _].
  - by eexists [_; _; _; _; _; _; _; _; _; _].
  - by eexists [_; _; _; _; _; _; _; _; _].
Qed.

Lemma price_bounds_witness :
  ["--min_price"; str (Etl.min_price (etl (config0 "data_check")));
   "--max_price"; str (Etl.max_price (etl (config0 "data_check")))] `suffix_of`
  ["pytest"; "."; "-vv"; "--csv"; "clean_sample:latest";
   "--ref"; "clean_sample:reference"; "--kl_threshold"; "0.2";
   "--min_price"; "10"; "--max_price"; "1000"].
Proof.
  apply (cleaning_and_checking_share_the_price_bounds (config0 "data_check") host0 world0
           (Event data_check (call_of (config0 "data_check") host0 data_check)
                  (world_entered (config0 "data_check") host0 world0))
           _ "/home/user/project/src/data_check").
  - rewrite run_spec. vm_compute. left.
  - by right.
  - reflexivity.
Defined.

(** ** The temporary directory during the stages *)

Lemma workspace_exists_during_stages_witness :
  mkdtemp host0 ∈
    dirs (world_entered (config0 "download") host0 world0).
Proof.
  apply (workspace_exists_during_stages (config0 "download") host0 world0
           (Event download (call_of (config0 "download") host0 download)
                  (world_entered (config0 "download") host0 world0))).
  rewrite run_spec. vm_compute. left.
Defined.

(** X16: the stages never see anything written in the temporary
    directory: provided the current directory is not that directory or
    below it, every path that is the temporary directory or below it has,
    when a stage is launched, the content it had when [go] was entered. *)
Theorem nothing_is_written_in_the_temporary_directory
    (config : DictConfig) (h : host) (w : world) (e : event) (path : string) :
  e ∈ st_trace (run config h w).2 ->
  under (mkdtemp h) (abspath h "rf_config.json") = false ->
  under (mkdtemp h) path = true ->
  files (ev_world e) !! path = files w !! path.
Proof.
  intros (_ & _ & ->)%trace_elem_of Hrf Hp. unfold world_seen.
  destruct (_ && _); [| done]. cbn [with_rf_config files world_entered].
  rewrite lookup_insert_ne; [done |]. intros E. rewrite E in Hrf. congruence.
Qed.

Lemma nothing_is_written_witness :
  files (with_rf_config (config0 "train_random_forest") host0
           (world_entered (config0 "train_random_forest") host0 world0))
    !! "/tmp/tmpk3x9a2/rf_config.json" = files world0 !! "/tmp/tmpk3x9a2/rf_config.json".
Proof.
  apply (nothing_is_written_in_the_temporary_directory
           (config0 "train_random_forest") host0 world0
           (Event train_random_forest
              (call_of (config0 "train_random_forest") host0 train_random_forest)
              (with_rf_config (config0 "train_random_forest") host0
                 (world_entered (config0 "train_random_forest") host0 world0)))).
  - rewrite run_spec. vm_compute. left.
  - reflexivity.
  - reflexivity.
Defined.

(** X17: a directive none of whose tokens is the name of a stage (the
    empty string, for one) launches nothing: [go] returns normally, and
    every file outside the temporary directory is as it was. *)
Theorem directive_without_stage_names_runs_nothing
    (config : DictConfig) (h : host) (w : world) :
  (forall s : stage, stage_name s ∉ active_steps_of (Main.steps (main config))) ->
  st_trace (run config h w).2 = [] /\
  (run config h w).1 = Ok tt /\
  forall path : string,
    under (mkdtemp h) path = false ->
    files (st_world (run config h w).2) !! path = files w !! path.
Proof.
  intros Hnone.
  assert (Hsel : selected (active_steps_of (Main.steps (main config))) = []).
  { apply elem_of_nil_inv. intros s Hs. by apply selected_elem_of, Hnone in Hs. }
  rewrite run_spec. unfold expected_stages. rewrite Hsel. cbn.
  repeat split; try done.
  intros path Hu. rewrite map_lookup_filter.
  destruct (files w !! path); [| done]. cbn. by rewrite option_guard_True.
Qed.

Lemma directive_without_stage_names_witness :
  st_trace (run (config0 "") host0 world1).2 = [] /\
  (run (config0 "") host0 world1).1 = Ok tt /\
  forall path : string,
    under (mkdtemp host0) path = false ->
    files (st_world (run (config0 "") host0 world1).2) !! path = files world1 !! path.
Proof.
  apply (directive_without_stage_names_runs_nothing (config0 "") host0 world1).
  intros s Hs. vm_compute active_steps_of in Hs.
  apply list_elem_of_singleton in Hs. by destruct s.
Defined.

(** ** Directives built from stage names *)

(** X18: a directive written as stage names joined by commas selects
    exactly those names: the active steps are the names as listed, and the
    stages that execute are the listed ones, in block order, up to the
    first failure. *)
Theorem directive_of_stage_names_selects_them (ss : list stage) :
  ss <> [] ->
  active_steps_of (String.concat "," (map stage_name ss)) = map stage_name ss /\
  forall (config : DictConfig) (h : host) (w : world),
    stages_run (with_steps config (String.concat "," (map stage_name ss))) h w =
      until_failure h (List.filter (fun s => bool_decide (s ∈ ss)) all_stages).
Proof.
  intros Hne.
  assert (Hsplit : Py.split ","%char (String.concat "," (map stage_name ss)) =
                   map stage_name ss).
  { apply split_concat; [by destruct ss |].
    apply Forall_forall. intros t (s & -> & _)%list_elem_of_fmap. by destruct s. }
  assert (Hact : active_steps_of (String.concat "," (map stage_name ss)) =
                 map stage_name ss).
  { rewrite active_steps_of_split; [done |]. intros E. rewrite E in Hsplit.
    destruct ss as [| s [| s' ss']]; [done | | done]. by destruct s. }
  split; [done |]. intros config h w. rewrite stages_run_spec. unfold expected_stages.
  cbn [with_steps main Main.steps]. rewrite Hact. f_equal. unfold selected.
  apply filter_ext. intros s. destruct (bool_decide (s ∈ ss)) eqn:E.
  - apply bool_decide_eq_true in E. apply contains_elem_of, list_elem_of_fmap. eauto.
  - apply bool_decide_eq_false in E.
    destruct (Py.contains (stage_name s) (map stage_name ss)) eqn:E'; [| done].
    apply contains_elem_of, list_elem_of_fmap in E' as (s' & Hs' & Hin).
    apply stage_name_inj in Hs' as ->. done.
Qed.

Lemma directive_of_stage_names_witness :
  active_steps_of (String.concat "," (map stage_name [data_split; download; data_split])) =
    map stage_name [data_split; download; data_split].
Proof.
  apply (proj1 (directive_of_stage_names_selects_them [data_split; download; data_split]
                  ltac:(discriminate))).
Defined.

(** ** Printing values *)

(** X19: [str] of an integer is its decimal notation: reading the digits
    back gives the integer, so two integers that print alike are equal. *)
Theorem str_of_an_integer_reads_back (z : Z) :
  Z.of_int <$> NilZero.int_of_string (str (VInt z)) = Some z /\
  forall z' : Z, str (VInt z) = str (VInt z') -> z = z'.
Proof.
  assert (Hrt : forall x : Z, Z.of_int <$> NilZero.int_of_string (str (VInt x)) = Some x).
  { intros x. cbn [str]. unfold str_int. rewrite NilZero.isi.
    - cbn. by rewrite DecimalZ.of_to.
    - destruct x; cbn; [done | | done]. intros [= H].
      by apply DecimalPos.Unsigned.to_uint_nonnil in H.
    - destruct x; cbn; [done | done |]. intros [= H].
      by apply DecimalPos.Unsigned.to_uint_nonnil in H. }
  split; [apply Hrt |]. intros z' E.
  pose proof (Hrt z) as H. rewrite E, Hrt in H. by injection H.
Qed.
